(** * Auth controller of Website-FashionStore

    A shallow embedding of [src/server/controllers/user.account.controller.js]
    (createUser, loginUser, isTokenOk, validateClientToken, isUserExist) and
    the properties of its handlers.

    The handlers are JavaScript [async] functions that talk to an Express
    response object, a Mongoose model, bcryptjs and jsonwebtoken.  They are
    embedded as computations in a state-and-exception monad over the state of
    the process (user collection, console, in-flight response); the external
    libraries are variables of the section [Controller]. *)

From Stdlib Require Import ZArith String Ascii List Bool Lia.
Import ListNotations.
Set Warnings "-register-all,-notation-for-abbreviation".
Local Open Scope string_scope.
Local Open Scope Z_scope.
Local Open Scope list_scope.

(** ** JavaScript values *)

Module JS.

(** The values that travel through the handlers: request fields, cookie
    values, document fields and response payloads.  Numbers are the integers
    (status codes, counters); objects keep their keys in insertion order. *)
Inductive value : Type :=
| VUndefined
| VNull
| VBool (b : bool)
| VNum (n : Z)
| VStr (s : string)
| VObj (fields : list (string * value)).

(** [!!v] of JavaScript. *)
Definition truthy (v : value) : bool :=
  match v with
  | VUndefined | VNull => false
  | VBool b => b
  | VNum n => negb (n =? 0)
  | VStr s => negb (s =? "")%string
  | VObj _ => true
  end.

(** [!v]. *)
Definition not (v : value) : bool := negb (truthy v).

Definition typeof (v : value) : string :=
  match v with
  | VUndefined => "undefined"
  | VNull => "object"
  | VBool _ => "boolean"
  | VNum _ => "number"
  | VStr _ => "string"
  | VObj _ => "object"
  end.

(** [o.k] on the field list of an object: the value of the first entry named
    [k], [undefined] when there is none. *)
Fixpoint get (k : string) (o : list (string * value)) : value :=
  match o with
  | [] => VUndefined
  | (k', v) :: o' => if (k' =? k)%string then v else get k o'
  end.

Definition has_own (k : string) (o : list (string * value)) : bool :=
  existsb (fun kv => (fst kv =? k)%string) o.

(** [const { k: _, ...rest } = o]: the own fields of [o] other than [k], in
    their order. *)
Definition omit (k : string) (o : list (string * value)) : list (string * value) :=
  filter (fun kv => negb (fst kv =? k)%string) o.

(** A field named [k] occurs somewhere in [v], at any depth. *)
Fixpoint has_field (k : string) (v : value) : bool :=
  match v with
  | VObj fs => existsb (fun kv => (fst kv =? k)%string || has_field k (snd kv)) fs
  | _ => false
  end.

Definition is_scalar (v : value) : bool :=
  match v with
  | VObj _ => false
  | _ => true
  end.

End JS.
Import JS.

(** ** Process state *)

(** A document of the [UserAccount] collection, as its [_doc] object. *)
Definition Doc := list (string * value).

Record Cookie := mkCookie {
  cookie_name : string;
  cookie_value : string;
  cookie_httpOnly : bool
}.

(** Modelled from the spec: the envelope built by [serverResponse] of
    response.controller.js, which is not among the sources: a success flag, the
    status number and the data or message. *)
Record Envelope := mkEnvelope {
  success : bool;
  status : Z;
  payload : value
}.

(** What [res.json] puts on the wire: the status and cookies set so far, and
    the body. *)
Record HttpResponse := mkHttp {
  http_status : Z;
  http_cookies : list Cookie;
  http_body : Envelope
}.

(** The Express response object of the request being served. *)
Record Res := mkRes {
  statusCode : Z;
  cookies : list Cookie;
  sent : list HttpResponse
}.

Definition fresh_res : Res := mkRes 200 [] [].

Record State := mkState {
  users : list Doc;        (* the UserAccount collection *)
  console : list value;    (* lines written by console.log *)
  entropy : nat;           (* salts and object ids drawn so far *)
  now : Z;                 (* the clock, in seconds *)
  res : Res
}.

Definition with_users (us : list Doc) (st : State) : State :=
  mkState us (console st) (entropy st) (now st) (res st).
Definition with_console (c : list value) (st : State) : State :=
  mkState (users st) c (entropy st) (now st) (res st).
Definition with_entropy (n : nat) (st : State) : State :=
  mkState (users st) (console st) n (now st) (res st).
Definition with_res (r : Res) (st : State) : State :=
  mkState (users st) (console st) (entropy st) (now st) r.

(** ** Exceptions and the monad *)

Inductive jwt_error : Type :=
| TokenExpiredError
| NotBeforeError
| JsonWebTokenError (message : string).

Inductive exn : Type :=
| Error (message : string)
| JwtError (e : jwt_error)
| CastError (path : string) (v : value)
| StoreError (message : string).

Inductive outcome (A : Type) : Type :=
| Ret (a : A)
| Throw (e : exn).
Arguments Ret {A} a.
Arguments Throw {A} e.

(** A computation runs on the process state; what it did to the state stays
    done when it throws. *)
Definition M (A : Type) : Type := State -> outcome A * State.

Definition ret {A} (a : A) : M A := fun st => (Ret a, st).
Definition throw {A} (e : exn) : M A := fun st => (Throw e, st).
Definition bind {A B} (m : M A) (k : A -> M B) : M B :=
  fun st =>
    match m st with
    | (Ret a, st') => k a st'
    | (Throw e, st') => (Throw e, st')
    end.
Definition try_catch {A} (m : M A) (h : exn -> M A) : M A :=
  fun st =>
    match m st with
    | (Ret a, st') => (Ret a, st')
    | (Throw e, st') => h e st'
    end.
Definition gets {A} (f : State -> A) : M A := fun st => (Ret (f st), st).
Definition modify (f : State -> State) : M unit := fun st => (Ret tt, f st).

Declare Scope js_scope.
Delimit Scope js_scope with js.
Notation "x <- m ;; k" := (bind m (fun x => k))
  (at level 100, m at next level, right associativity) : js_scope.
Notation "m ;; k" := (bind m (fun _ => k))
  (at level 100, right associativity) : js_scope.
Local Open Scope js_scope.

(** ** Express: the response object *)

Definition res_status (n : Z) : M unit :=
  modify (fun st => with_res (mkRes n (cookies (res st)) (sent (res st))) st).

Definition res_cookie (name val : string) (httpOnly : bool) : M unit :=
  modify (fun st =>
    with_res (mkRes (statusCode (res st))
                    (cookies (res st) ++ [mkCookie name val httpOnly])
                    (sent (res st))) st).

Definition res_json (body : Envelope) : M unit :=
  modify (fun st =>
    with_res (mkRes (statusCode (res st)) (cookies (res st))
                    (sent (res st)
                       ++ [mkHttp (statusCode (res st)) (cookies (res st)) body])) st).

(** ** response.controller.js and server.process.controller.js *)

(** Modelled from the spec: [serverResponse] of response.controller.js, which
    is not among the sources: it builds the envelope. *)
Definition serverResponse (ok : bool) (code : Z) (data : value) : Envelope :=
  mkEnvelope ok code data.

(** Modelled from the spec: [serverBadRequest] of response.controller.js,
    which is not among the sources; like its siblings below it wraps its
    message or data in the envelope and sends it under its status, the way
    line 62 does by hand for 401. *)
Definition serverBadRequest (message : value) : M unit :=
  res_status 400 ;; res_json (serverResponse false 400 message).

(** Modelled from the spec: [serverNotFound] of response.controller.js, which
    is not among the sources. *)
Definition serverNotFound (message : value) : M unit :=
  res_status 404 ;; res_json (serverResponse false 404 message).

(** Modelled from the spec: [serverForbidden] of response.controller.js, which
    is not among the sources. *)
Definition serverForbidden (message : value) : M unit :=
  res_status 403 ;; res_json (serverResponse false 403 message).

(** Modelled from the spec: [serverOk] of response.controller.js, which is not
    among the sources; called without data it sends none. *)
Definition serverOk (data : value) : M unit :=
  res_status 200 ;; res_json (serverResponse true 200 data).

(** Modelled from the spec: [serverProcess] of server.process.controller.js,
    which is not among the sources: the try-wrapper around a handler body.  It
    runs the body; an exception that escapes the body is the outcome [Throw],
    which the generic error responder, outside this controller, receives
    together with the label of the operation. *)
Definition serverProcess (fn : M unit) (label : string) : M unit := fn.

(** ** jsonwebtoken: options and time spans *)

Record SignOptions := mkSignOptions { expiresIn : string }.

Inductive verify_result : Type :=
| Verified (decoded : value)
| Rejected (e : jwt_error).

Definition digit_of (c : ascii) : option Z :=
  let n := Z.of_nat (nat_of_ascii c) in
  if (48 <=? n) && (n <=? 57) then Some (n - 48) else None.

Definition unit_seconds (u : string) : option Z :=
  if (u =? "s")%string then Some 1
  else if (u =? "m")%string then Some 60
  else if (u =? "h")%string then Some 3600
  else if (u =? "d")%string then Some 86400
  else None.

(** The span notation of the [expiresIn] option ("1h", "30m", "7d"): a decimal
    count followed by a unit, in seconds. *)
Fixpoint span_from (acc : Z) (seen : bool) (s : string) : option Z :=
  match s with
  | EmptyString => None
  | String c rest =>
      match digit_of c with
      | Some d => span_from (10 * acc + d) true rest
      | None =>
          if seen then
            match unit_seconds s with
            | Some u => Some (acc * u)
            | None => None
            end
          else None
      end
  end.

Definition span_seconds (s : string) : option Z := span_from 0 false s.

(** ** Requests *)

(** The request as the handlers read it: the parsed JSON body and the parsed
    cookies, both objects. *)
Record Request := mkRequest {
  body : list (string * value);
  req_cookies : list (string * value)
}.

(** Modelled from the spec: the answer of [newAccountValidation] of
    validation/user.account.validation.js, which is not among the sources:
    [true] or a human-readable message. *)
Inductive validation : Type :=
| Valid
| Invalid (message : string).

(** A handler serves a request on a response object of its own. *)
Definition serve {A} (handler : M A) (st : State) : outcome A * State :=
  handler (with_res fresh_res st).

(** The state after a handler sent exactly [r] and did nothing else. *)
Definition answered (r : HttpResponse) (st : State) : State :=
  with_res (mkRes (http_status r) (http_cookies r) [r]) st.

(** The bodies of the responses sent in a run. *)
Definition bodies (run : outcome unit * State) : list Envelope :=
  map http_body (sent (res (snd run))).

(** The account documents as the data model has them: every field a scalar. *)
Definition flat_doc (d : Doc) : bool :=
  forallb (fun kv => is_scalar (snd kv)) d.

(** The emails of a collection that are strings, in the order of the
    accounts. *)
Fixpoint string_emails (us : list Doc) : list string :=
  match us with
  | [] => []
  | d :: us' =>
      match get "email" d with
      | VStr e => e :: string_emails us'
      | _ => string_emails us'
      end
  end.

(** The cookies a client sends back after a response: those the response
    set, by name. *)
Definition cookies_sent_back (r : HttpResponse) : list (string * value) :=
  map (fun c => (cookie_name c, VStr (cookie_value c))) (http_cookies r).

(** ** A small instance

    Stand-ins for the libraries and a collection of one account, on which the
    theorems below are run. *)

Module Sample.

Definition validate (name email password : value) : validation :=
  match name, email, password with
  | VStr n, VStr e, VStr p =>
      if (n =? "")%string then Invalid "Name is required"
      else if (e =? "")%string then Invalid "Email is required"
      else if (String.length p <? 8)%nat
           then Invalid "Password must be at least 8 characters"
           else Valid
  | _, _, _ => Invalid "Name, email and password must be strings"
  end.

Definition hash (p : string) (cost : Z) (salt : nat) : string :=
  ("$2a$10$" ++ p)%string.

Definition compare (p h : string) : bool := (h =? "$2a$10$" ++ p)%string.

Definition secret : value := VStr "s3cret".

Definition key_text (key : value) : string :=
  match key with
  | VStr k => k
  | _ => ""
  end.

Definition sign (claims key : value) (opts : SignOptions) (t : Z) : string :=
  match claims with
  | VObj [(_, VStr e)] => ("jwt." ++ e ++ "." ++ key_text key)%string
  | _ => ("jwt.." ++ key_text key)%string
  end.

Definition verify (token key : value) (t : Z) : verify_result :=
  match key with
  | VStr k =>
      match token with
      | VStr s =>
          if (s =? "jwt.a@x.com." ++ k)%string
          then Verified (VObj [("email", VStr "a@x.com")])
          else Rejected (JsonWebTokenError "jwt malformed")
      | _ => Rejected (JsonWebTokenError "jwt must be a string")
      end
  | _ => Rejected (JsonWebTokenError "secret or public key must be provided")
  end.

Definition oid (n : nat) : string :=
  String.concat "" (repeat "a" (24 - n) ++ repeat "b" n).

Definition cast_id (v : value) : option string :=
  match v with
  | VStr s => if (String.length s =? 24)%nat then Some s else None
  | _ => None
  end.

Definition cast_filter (v : value) : outcome (Doc -> bool) :=
  Throw (CastError "email" v).

Definition alice : Doc :=
  [("_id", VStr "64b7f0a1c2d3e4f5a6b7c8d9");
   ("name", VStr "Alice");
   ("email", VStr "a@x.com");
   ("password", VStr "$2a$10$Secret123!")].

Definition empty_store : State := mkState [] [] 0 1700000000 fresh_res.
Definition one_account : State := mkState [alice] [] 2 1700000000 fresh_res.

Definition register (name email password : string) : Request :=
  mkRequest [("name", VStr name); ("email", VStr email); ("password", VStr password)] [].

Definition login (email password : string) : Request :=
  mkRequest [("email", VStr email); ("password", VStr password)] [].

Definition with_cookie (token : string) : Request :=
  mkRequest [] [("access_token", VStr token)].

Definition no_cookie : Request := mkRequest [] [].

End Sample.

(** ** The controller *)

Section Controller.

(** [newAccountValidation] of validation/user.account.validation.js. *)
Variable newAccountValidation : value -> value -> value -> validation.

(** bcryptjs: the salted hash at a cost (the salt is drawn from the entropy
    of the process) and the comparison of a password with a hash. *)
Variable bcrypt_hash : string -> Z -> nat -> string.
Variable bcrypt_compare : string -> string -> bool.

(** The secret of the process, [process.env.JWT_SECRET]: a string, or
    [undefined] when the environment does not set it.  jsonwebtoken: the token
    signed over some claims with a secret that has a value, and the verdict on
    a token under a secret (a missing secret is one of the reasons to
    reject). *)
Variable JWT_SECRET : value.
Variable jwt_sign_with : value -> value -> SignOptions -> Z -> string.
Variable jwt_verify_with : value -> value -> Z -> verify_result.

(** Mongoose: the identifier given to the n-th new document, the cast of a
    value to an identifier ([None]: malformed), and the cast of an email
    filter that is not a string to the condition it selects by (or to the
    error of the cast). *)
Variable objectId : nat -> string.
Variable castObjectId : value -> option string.
Variable cast_email_filter : value -> outcome (Doc -> bool).

(** *** bcryptjs *)

Definition illegal_arguments (a b : value) : exn :=
  Error ("Illegal arguments: " ++ typeof a ++ ", " ++ typeof b)%string.

Definition bcryptjs_hash (s : value) (rounds : Z) : M string :=
  match s with
  | VStr p =>
      fun st => (Ret (bcrypt_hash p rounds (entropy st)),
                 with_entropy (S (entropy st)) st)
  | _ => throw (illegal_arguments s (VNum rounds))
  end.

Definition bcryptjs_compareSync (s hash : value) : M bool :=
  match s, hash with
  | VStr p, VStr h => ret (bcrypt_compare p h)
  | _, _ => throw (illegal_arguments s hash)
  end.

(** *** jsonwebtoken *)

(** [jwt.sign(claims, secret, opts)]: without a secret (unset or empty) it
    throws, otherwise it returns the token. *)
Definition jwt_sign (claims secret : value) (opts : SignOptions) : M string :=
  if JS.not secret
  then throw (Error "secretOrPrivateKey must have a value")
  else gets (fun st => jwt_sign_with claims secret opts (now st)).

(** [jwt.verify(token, secret)]: returns the decoded payload or throws. *)
Definition jwt_verify (token secret : value) : M value :=
  fun st =>
    match jwt_verify_with token secret (now st) with
    | Verified d => (Ret d, st)
    | Rejected e => (Throw (JwtError e), st)
    end.

(** [jwt.verify(token, secret, callback)]: the error, if any, goes to the
    callback. *)
Definition jwt_verify_cb (token secret : value)
    (callback : option jwt_error -> M unit) : M unit :=
  fun st =>
    match jwt_verify_with token secret (now st) with
    | Verified _ => callback None st
    | Rejected e => callback (Some e) st
    end.

(** *** The UserAccount model *)

Definition field_is (k s : string) (d : Doc) : bool :=
  match get k d with
  | VStr s' => (s' =? s)%string
  | _ => false
  end.

Definition email_filter (email : value) : outcome (Doc -> bool) :=
  match email with
  | VStr e => Ret (field_is "email" e)
  | _ => cast_email_filter email
  end.

(** [UserAccount.findOne({ email })]: the first document the filter
    selects, [None] for JavaScript's [null]. *)
Definition UserAccount_findOne (email : value) : M (option Doc) :=
  match email_filter email with
  | Ret selects => gets (fun st => find selects (users st))
  | Throw e => throw e
  end.

(** [UserAccount.findById(id)]. *)
Definition UserAccount_findById (id : value) : M (option Doc) :=
  match castObjectId id with
  | Some oid => gets (fun st => find (field_is "_id" oid) (users st))
  | None => throw (CastError "_id" id)
  end.

(** [new UserAccount(fields)]: the document gets its identifier. *)
Definition UserAccount_new (fields : list (string * value)) : M Doc :=
  fun st => (Ret (("_id", VStr (objectId (entropy st))) :: fields),
             with_entropy (S (entropy st)) st).

(** [doc.save()]. *)
Definition save (d : Doc) : M unit :=
  modify (fun st => with_users (users st ++ [d]) st).

Definition console_log (v : value) : M unit :=
  modify (fun st => with_console (console st ++ [v]) st).

(** *** The handlers *)

Definition createUser (req : Request) : M unit :=
  serverProcess (
    let name := get "name" (body req) in
    let email := get "email" (body req) in
    let password := get "password" (body req) in
    match newAccountValidation name email password with
    | Invalid message => serverBadRequest (VStr message)
    | Valid =>
        existingUser <- UserAccount_findOne email ;;
        match existingUser with
        | Some _ => serverBadRequest (VStr "Email already exists")
        | None =>
            hashPassword <- bcryptjs_hash password 10 ;;
            newUser <- UserAccount_new
                         [("name", name); ("email", email);
                          ("password", VStr hashPassword)] ;;
            save newUser ;;
            serverOk VUndefined
        end
    end) "create user".

Definition loginUser (req : Request) : M unit :=
  serverProcess (
    let email := get "email" (body req) in
    let password := get "password" (body req) in
    if JS.not email || JS.not password
    then serverBadRequest (VStr "Email and password are required")
    else
      validUser <- UserAccount_findOne email ;;
      match validUser with
      | None => serverNotFound (VStr "User not found")
      | Some validUser =>
          passwordIsValid <- bcryptjs_compareSync password (get "password" validUser) ;;
          if negb passwordIsValid
          then res_status 401 ;;
               res_json (serverResponse false 401 (VStr "Incorrect password"))
          else
            token <- jwt_sign (VObj [("email", get "email" validUser)])
                              JWT_SECRET (mkSignOptions "1h") ;;
            let rest := omit "password" validUser in
            res_status 200 ;;
            res_cookie "access_token" token true ;;
            res_json (serverResponse true 200 (VObj [("user", VObj rest)]))
      end) "login user".

Definition isTokenOk (req : Request) : M unit :=
  serverProcess (
    let token := get "access_token" (req_cookies req) in
    if JS.not token
    then serverBadRequest (VStr "Empty token!")
    else
      jwt_verify_cb token JWT_SECRET (fun err =>
        match err with
        | Some _ => serverForbidden (VStr "Invalid or expired token")
        | None => serverOk (VStr "Token accepted")
        end)) "is token ok".

Definition validateClientToken (token : value) : M bool :=
  console_log token ;;
  if JS.not token
  then throw (Error "Empty Token")
  else
    try_catch
      (jwt_verify token JWT_SECRET ;; ret true)
      (fun err => ret false).

Definition isUserExist (user_id : value) : M (option Doc) :=
  user <- UserAccount_findById user_id ;;
  ret user.

(** *** Sequences of requests *)

(** A request to one of the three routes of the controller. *)
Inductive call : Type :=
| Register (req : Request)
| Login (req : Request)
| VerifyToken (req : Request).

Definition handle (c : call) : M unit :=
  match c with
  | Register req => createUser req
  | Login req => loginUser req
  | VerifyToken req => isTokenOk req
  end.

(** The state of the process after serving the calls one after the other,
    each on a response object of its own. *)
Fixpoint serve_all (cs : list call) (st : State) : State :=
  match cs with
  | [] => st
  | c :: cs' => serve_all cs' (snd (serve (handle c) st))
  end.

Definition registers_string_email (c : call) : Prop :=
  match c with
  | Register req => exists e, get "email" (body req) = VStr e
  | _ => True
  end.

(** *** Running a handler *)

Ltac unfold_js :=
  unfold serve, answered, serverProcess, serverBadRequest, serverNotFound,
    serverForbidden, serverOk, serverResponse, res_status, res_cookie,
    res_json, jwt_sign, jwt_verify, jwt_verify_cb, UserAccount_new, save,
    console_log, bind, try_catch, gets, modify, throw, ret,
    with_res, with_users, with_console, with_entropy, fresh_res in *.

Ltac break_match :=
  match goal with
  | |- context [match ?x with _ => _ end] =>
      lazymatch x with
      | context [match _ with _ => _ end] => fail
      | _ => destruct x eqn:?; simpl
      end
  end.

Lemma not_truthy v : JS.not v = negb (truthy v).
Proof. reflexivity. Qed.

(** *** Objects and the collection *)

Lemma get_absent k o : has_own k o = false -> get k o = VUndefined.
Proof.
  induction o as [|[k' v] o IH]; simpl; [reflexivity|].
  destruct (k' =? k)%string; simpl; [discriminate | exact IH].
Qed.

Lemma has_own_omit k o : has_own k (omit k o) = false.
Proof.
  induction o as [|[k' v] o IH]; simpl; [reflexivity|].
  destruct (k' =? k)%string eqn:E; simpl; [exact IH|].
  rewrite E. exact IH.
Qed.

Lemma get_omit_other k k' o : k' <> k -> get k' (omit k o) = get k' o.
Proof.
  intros Hne. induction o as [|[k0 v] o IH]; simpl; [reflexivity|].
  destruct (k0 =? k)%string eqn:E; simpl.
  - apply String.eqb_eq in E. subst k0.
    destruct (k =? k')%string eqn:E'; [|exact IH].
    apply String.eqb_eq in E'. congruence.
  - rewrite IH. reflexivity.
Qed.

Lemma has_field_scalar k v : is_scalar v = true -> has_field k v = false.
Proof. destruct v; simpl; intros H; try reflexivity; discriminate. Qed.

Lemma has_field_omit_flat k d :
  flat_doc d = true -> has_field k (VObj (omit k d)) = false.
Proof.
  unfold flat_doc. simpl. induction d as [|[k' v] d IH]; simpl; [reflexivity|].
  intros H. apply andb_prop in H. destruct H as [Hv Hd].
  destruct (k' =? k)%string eqn:E; simpl; [exact (IH Hd)|].
  rewrite E, (has_field_scalar k v Hv), (IH Hd). reflexivity.
Qed.

Lemma find_field_is_some k s us d :
  find (field_is k s) us = Some d -> In d us /\ get k d = VStr s.
Proof.
  intros H. apply find_some in H. destruct H as [Hin Hf]. split; [exact Hin|].
  unfold field_is in Hf. destruct (get k d); try discriminate.
  apply String.eqb_eq in Hf. congruence.
Qed.

Lemma find_field_is_none k s us :
  (forall d, In d us -> get k d <> VStr s) -> find (field_is k s) us = None.
Proof.
  intros H. destruct (find (field_is k s) us) eqn:E; [|reflexivity].
  apply find_field_is_some in E. destruct E as [Hin Hg].
  exfalso. exact (H _ Hin Hg).
Qed.

Lemma find_field_is_exists k s us d :
  In d us -> get k d = VStr s -> exists d', find (field_is k s) us = Some d'.
Proof.
  intros Hin Hg. destruct (find (field_is k s) us) eqn:E; [eauto|].
  exfalso. apply (find_none _ _ E) in Hin.
  unfold field_is in Hin. rewrite Hg, String.eqb_refl in Hin. discriminate.
Qed.

Lemma truthy_str s : truthy (VStr s) = false <-> s = "".
Proof.
  simpl. destruct (String.eqb_spec s ""); simpl; split; intros; congruence.
Qed.

(** *** validateClientToken *)

(** C10: the token is written to the console before anything else, on every
    call, also on the calls that go on to throw 'Empty Token'. *)
Theorem validateClientToken_logs_first :
  (forall token st,
     console (snd (validateClientToken token st)) = console st ++ [token])
  /\ (forall st,
        validateClientToken VUndefined st
        = (Throw (Error "Empty Token"),
           with_console (console st ++ [VUndefined]) st))
  /\ (forall st,
        validateClientToken (VStr "") st
        = (Throw (Error "Empty Token"),
           with_console (console st ++ [VStr ""]) st)).
Proof.
  split; [|split; reflexivity].
  intros token st.
  unfold validateClientToken, bind, try_catch, console_log, modify, jwt_verify, throw, ret.
  destruct (JS.not token); simpl; [reflexivity|].
  destruct (jwt_verify_with token JWT_SECRET (now st)); reflexivity.
Qed.

(** C2: validateClientToken throws, and then the error 'Empty Token', exactly
    when the token is falsy (absent, or the empty string); on every other
    token it returns a boolean, [true] when jsonwebtoken verifies the token
    against the secret of the process and [false] whatever the reason of a
    rejection. *)
Theorem validateClientToken_contract :
  forall token st,
    (forall e, fst (validateClientToken token st) = Throw e ->
               e = Error "Empty Token" /\ truthy token = false)
    /\ (truthy token = false ->
        fst (validateClientToken token st) = Throw (Error "Empty Token"))
    /\ (token = VUndefined \/ token = VNull \/ token = VStr "" ->
        fst (validateClientToken token st) = Throw (Error "Empty Token"))
    /\ (forall s, token = VStr s ->
          (fst (validateClientToken token st) = Throw (Error "Empty Token")
           <-> s = ""))
    /\ (truthy token = true ->
        (forall d, jwt_verify_with token JWT_SECRET (now st) = Verified d ->
                   fst (validateClientToken token st) = Ret true)
        /\ (forall e, jwt_verify_with token JWT_SECRET (now st) = Rejected e ->
                      fst (validateClientToken token st) = Ret false)).
Proof.
  intros token st.
  assert (Hrun : fst (validateClientToken token st)
                 = if truthy token
                   then match jwt_verify_with token JWT_SECRET (now st) with
                        | Verified _ => Ret true
                        | Rejected _ => Ret false
                        end
                   else Throw (Error "Empty Token")).
  { unfold validateClientToken, bind, try_catch, console_log, modify,
      jwt_verify, throw, ret, JS.not. simpl.
    destruct (truthy token); simpl; [|reflexivity].
    destruct (jwt_verify_with token JWT_SECRET (now st)); reflexivity. }
  rewrite Hrun. repeat split.
  - destruct (truthy token); [|congruence].
    destruct (jwt_verify_with token JWT_SECRET (now st)); discriminate.
  - destruct (truthy token); [|reflexivity].
    destruct (jwt_verify_with token JWT_SECRET (now st)); discriminate.
  - intros ->. reflexivity.
  - intros [-> | [-> | ->]]; reflexivity.
  - subst token. intros H. apply truthy_str.
    destruct (truthy (VStr s)); [|reflexivity].
    destruct (jwt_verify_with (VStr s) JWT_SECRET (now st)); discriminate.
  - intros ->. subst token. reflexivity.
  - intros d Hd. rewrite H, Hd. reflexivity.
  - intros e He. rewrite H, He. reflexivity.
Qed.

(** *** isTokenOk *)

(** C7: a verify-token request without the access_token cookie (or with an
    empty one) is answered 400 'Empty token!'; with a cookie that
    jsonwebtoken rejects, 403 'Invalid or expired token'; with one it
    verifies, 200 'Token accepted'. *)
Theorem isTokenOk_responses :
  forall req st,
    let token := get "access_token" (req_cookies req) in
    (has_own "access_token" (req_cookies req) = false \/ truthy token = false ->
     serve (isTokenOk req) st
     = (Ret tt,
        answered (mkHttp 400 [] (mkEnvelope false 400 (VStr "Empty token!"))) st))
    /\ (truthy token = true ->
        forall e, jwt_verify_with token JWT_SECRET (now st) = Rejected e ->
        serve (isTokenOk req) st
        = (Ret tt,
           answered (mkHttp 403 []
                       (mkEnvelope false 403 (VStr "Invalid or expired token"))) st))
    /\ (truthy token = true ->
        forall d, jwt_verify_with token JWT_SECRET (now st) = Verified d ->
        serve (isTokenOk req) st
        = (Ret tt,
           answered (mkHttp 200 [] (mkEnvelope true 200 (VStr "Token accepted"))) st)).
Proof.
  intros req st token. repeat split.
  - intros H.
    assert (Hf : truthy token = false).
    { destruct H as [H | H]; [|exact H].
      unfold token. rewrite (get_absent _ _ H). reflexivity. }
    unfold isTokenOk. fold token. rewrite not_truthy, Hf. reflexivity.
  - intros Ht e He. unfold isTokenOk. fold token. rewrite not_truthy, Ht.
    unfold_js. simpl. rewrite He. reflexivity.
  - intros Ht d Hd. unfold isTokenOk. fold token. rewrite not_truthy, Ht.
    unfold_js. simpl. rewrite Hd. reflexivity.
Qed.

(** *** loginUser *)

(** C4: the failure branches of login, in their order.  A falsy email or
    password is answered 400 'Email and password are required' whatever the
    collection holds; otherwise an email that no account has is answered 404
    'User not found' whatever the password; otherwise a password that does
    not match the stored hash is answered 401 'Incorrect password', status
    and envelope set on the response object directly.  In each case that one
    response is all the handler does. *)
Theorem loginUser_failure_branches :
  forall req st,
    let email := get "email" (body req) in
    let password := get "password" (body req) in
    (truthy email = false \/ truthy password = false ->
     serve (loginUser req) st
     = (Ret tt,
        answered (mkHttp 400 []
                    (mkEnvelope false 400 (VStr "Email and password are required"))) st))
    /\ (truthy email = true -> truthy password = true ->
        forall e, email = VStr e ->
        (forall d, In d (users st) -> get "email" d <> VStr e) ->
        serve (loginUser req) st
        = (Ret tt,
           answered (mkHttp 404 [] (mkEnvelope false 404 (VStr "User not found"))) st))
    /\ (truthy email = true -> truthy password = true ->
        forall e p u h, email = VStr e -> password = VStr p ->
        find (field_is "email" e) (users st) = Some u ->
        get "password" u = VStr h ->
        bcrypt_compare p h = false ->
        serve (loginUser req) st
        = (Ret tt,
           answered (mkHttp 401 []
                       (mkEnvelope false 401 (VStr "Incorrect password"))) st)
        /\ serve (loginUser req) st
           = serve (res_status 401 ;;
                    res_json (serverResponse false 401 (VStr "Incorrect password"))) st).
Proof.
  intros req st email password. split; [|split].
  - intros H. unfold loginUser. fold email password. rewrite !not_truthy.
    assert (Hor : negb (truthy email) || negb (truthy password) = true).
    { destruct H as [-> | ->]; simpl; [reflexivity | apply orb_true_r]. }
    rewrite Hor. reflexivity.
  - intros He Hp e Heq Hnone. unfold loginUser. fold email password.
    rewrite !not_truthy, He, Hp. simpl. rewrite Heq.
    unfold UserAccount_findOne, email_filter. unfold_js. simpl.
    rewrite (find_field_is_none _ _ _ Hnone). reflexivity.
  - intros He Hp e p u h Heq Hpq Hfind Hh Hcmp. unfold loginUser.
    fold email password. rewrite !not_truthy, He, Hp. simpl. rewrite Heq, Hpq.
    unfold UserAccount_findOne, email_filter, bcryptjs_compareSync.
    unfold_js. simpl.
    rewrite Hfind, Hh. simpl. rewrite Hcmp. split; reflexivity.
Qed.

(** C5: when the process has its secret, a login with the email of an
    account and the matching password signs a token over the payload that
    holds that account's email and nothing else, with the secret of the
    process and the expiry '1h', which is 3600 seconds; it sets the token as
    the http-only cookie access_token and answers 200. *)
Theorem loginUser_success :
  forall req st e p u h,
    truthy JWT_SECRET = true ->
    get "email" (body req) = VStr e -> e <> "" ->
    get "password" (body req) = VStr p -> p <> "" ->
    find (field_is "email" e) (users st) = Some u ->
    get "password" u = VStr h ->
    bcrypt_compare p h = true ->
    let token :=
      jwt_sign_with (VObj [("email", VStr e)]) JWT_SECRET (mkSignOptions "1h") (now st) in
    let cookie := mkCookie "access_token" token true in
    get "email" u = VStr e
    /\ span_seconds (expiresIn (mkSignOptions "1h")) = Some 3600
    /\ serve (loginUser req) st
       = (Ret tt,
          answered (mkHttp 200 [cookie]
                      (mkEnvelope true 200
                         (VObj [("user", VObj (omit "password" u))]))) st).
Proof.
  intros req st e p u h Hsecret He Hne Hp Hnp Hfind Hh Hcmp token cookie.
  destruct (find_field_is_some _ _ _ _ Hfind) as [_ Hue].
  split; [exact Hue|]. split; [reflexivity|].
  unfold loginUser. rewrite !not_truthy, He, Hp.
  assert (Te : truthy (VStr e) = true).
  { destruct (truthy (VStr e)) eqn:E; [reflexivity|].
    apply truthy_str in E. contradiction. }
  assert (Tp : truthy (VStr p) = true).
  { destruct (truthy (VStr p)) eqn:E; [reflexivity|].
    apply truthy_str in E. contradiction. }
  rewrite Te, Tp. simpl.
  unfold UserAccount_findOne, email_filter, bcryptjs_compareSync, jwt_sign.
  rewrite not_truthy, Hsecret.
  unfold_js. simpl.
  rewrite Hfind, Hh. simpl. rewrite Hcmp, Hue. reflexivity.
Qed.

(** C9: login leaves the user collection as it found it, on every request
    and whatever the outcome; nothing of the state outside the response
    object changes, and a cookie is set only by the branch that answers 200,
    which sets access_token. *)
Theorem loginUser_no_store_write :
  forall req st,
    let st' := snd (loginUser req st) in
    users st' = users st
    /\ with_res (res st) st' = st
    /\ (cookies (res st') = cookies (res st)
        \/ exists token,
             cookies (res st') = cookies (res st) ++ [mkCookie "access_token" token true]
             /\ statusCode (res st') = 200).
Proof.
  intros req st. destruct st as [us c n t r].
  unfold loginUser, UserAccount_findOne, email_filter, bcryptjs_compareSync.
  unfold_js. simpl.
  repeat break_match;
    (split; [reflexivity | split; [reflexivity|]]);
    first [ left; reflexivity | right; eexists; split; reflexivity ].
Qed.

(** *** createUser *)

(** A request that fails validation is answered 400 with the message of the
    validation, before the collection is looked at. *)
Lemma createUser_invalid req st message :
  newAccountValidation (get "name" (body req)) (get "email" (body req))
    (get "password" (body req)) = Invalid message ->
  serve (createUser req) st
  = (Ret tt, answered (mkHttp 400 [] (mkEnvelope false 400 (VStr message))) st).
Proof. intros H. unfold createUser. rewrite H. reflexivity. Qed.

(** C3, amended: a register request that passes validation and carries the
    email of an existing account is answered 400 'Email already exists',
    whatever its name and password are. *)
Theorem createUser_duplicate_email :
  forall req st e d,
    newAccountValidation (get "name" (body req)) (get "email" (body req))
      (get "password" (body req)) = Valid ->
    get "email" (body req) = VStr e ->
    In d (users st) -> get "email" d = VStr e ->
    serve (createUser req) st
    = (Ret tt,
       answered (mkHttp 400 []
                   (mkEnvelope false 400 (VStr "Email already exists"))) st).
Proof.
  intros req st e d Hv He Hin Hd.
  destruct (find_field_is_exists _ _ _ _ Hin Hd) as [d' Hfind].
  unfold createUser. rewrite Hv, He.
  unfold UserAccount_findOne, email_filter. unfold_js. simpl.
  rewrite Hfind. reflexivity.
Qed.

(** C6: a register request that passes validation, with a string email that
    no account has yet and a string password, hashes the password at cost
    10, appends to the collection one account whose password field is that
    hash, and answers 200 with a success envelope without data. *)
Theorem createUser_success :
  forall req st e p,
    newAccountValidation (get "name" (body req)) (get "email" (body req))
      (get "password" (body req)) = Valid ->
    get "email" (body req) = VStr e ->
    get "password" (body req) = VStr p ->
    (forall d, In d (users st) -> get "email" d <> VStr e) ->
    let hashPassword := bcrypt_hash p 10 (entropy st) in
    let newUser : Doc :=
      [("_id", VStr (objectId (S (entropy st))));
       ("name", get "name" (body req));
       ("email", VStr e);
       ("password", VStr hashPassword)] in
    serve (createUser req) st
    = (Ret tt,
       answered (mkHttp 200 [] (mkEnvelope true 200 VUndefined))
         (with_entropy (S (S (entropy st)))
            (with_users (users st ++ [newUser]) st)))
    /\ get "password" newUser = VStr hashPassword
    /\ (hashPassword <> p -> get "password" newUser <> VStr p).
Proof.
  intros req st e p Hv He Hp Hnew hashPassword newUser.
  split; [|split].
  - unfold createUser. rewrite Hv, He, Hp.
    unfold UserAccount_findOne, email_filter, bcryptjs_hash. unfold_js. simpl.
    rewrite (find_field_is_none _ _ _ Hnew). reflexivity.
  - reflexivity.
  - intros Hne Heq. simpl in Heq. congruence.
Qed.

(** *** isUserExist *)

(** C8: for a well-formed identifier, isUserExist returns the stored account
    with that identifier as it is stored, password field included, when
    there is one, and returns the absent result, without throwing, when
    there is none; the collection is only read. *)
Theorem isUserExist_contract :
  forall user_id oid st,
    castObjectId user_id = Some oid ->
    (forall d, In d (users st) -> get "_id" d = VStr oid ->
       exists user,
         isUserExist user_id st = (Ret (Some user), st)
         /\ In user (users st)
         /\ get "_id" user = VStr oid)
    /\ ((forall d, In d (users st) -> get "_id" d <> VStr oid) ->
        isUserExist user_id st = (Ret None, st)).
Proof.
  intros user_id oid st Hcast.
  unfold isUserExist, UserAccount_findById. rewrite Hcast. unfold_js.
  split.
  - intros d Hin Hd.
    destruct (find_field_is_exists _ _ _ _ Hin Hd) as [user Hfind].
    exists user. rewrite Hfind.
    destruct (find_field_is_some _ _ _ _ Hfind) as [Hu Hid].
    repeat split; assumption.
  - intros Hnone. rewrite (find_field_is_none _ _ _ Hnone). reflexivity.
Qed.

(** *** What the responses carry *)

(** C1: no response of register, login or verify-token has a password field
    in its body.  The responses of register and verify-token, and the failure
    responses of login, carry a message or nothing, never an object; a
    successful login carries the account it found with the field password
    left out and its other fields as they are, so that, the fields of an
    account being scalars, no password field is left at any depth.  The two
    helper queries send nothing. *)
Theorem no_password_in_responses :
  forall req st,
    (forall b, In b (bodies (serve (createUser req) st)) ->
       is_scalar (payload b) = true /\ has_field "password" (payload b) = false)
    /\ (forall b, In b (bodies (serve (isTokenOk req) st)) ->
          is_scalar (payload b) = true /\ has_field "password" (payload b) = false)
    /\ (forall b, In b (bodies (serve (loginUser req) st)) ->
          (success b = false ->
           is_scalar (payload b) = true /\ has_field "password" (payload b) = false)
          /\ (success b = true ->
              exists u,
                In u (users st)
                /\ payload b = VObj [("user", VObj (omit "password" u))]
                /\ has_own "password" (omit "password" u) = false
                /\ (forall k, k <> "password" ->
                      get k (omit "password" u) = get k u)
                /\ (flat_doc u = true -> has_field "password" (payload b) = false)))
    /\ (forall token, res (snd (validateClientToken token st)) = res st)
    /\ (forall user_id, res (snd (isUserExist user_id st)) = res st).
Proof.
  intros req st. destruct st as [us c n t r].
  split; [|split; [|split; [|split]]].
  - intros b.
    unfold bodies, createUser, UserAccount_findOne, email_filter, bcryptjs_hash.
    unfold_js. simpl.
    repeat break_match; simpl; intros H;
      repeat (destruct H as [<- | H]); try contradiction; split; reflexivity.
  - intros b. unfold bodies, isTokenOk. unfold_js. simpl.
    repeat break_match; simpl; intros H;
      repeat (destruct H as [<- | H]); try contradiction; split; reflexivity.
  - intros b.
    unfold bodies, loginUser, UserAccount_findOne, email_filter,
      bcryptjs_compareSync.
    unfold_js. simpl.
    repeat break_match; simpl; intros H;
      repeat (destruct H as [<- | H]); try contradiction;
      (split; simpl; intros Hs; [try discriminate Hs; split; reflexivity|]);
      try discriminate Hs.
    all: match goal with
         | Hf : find _ ?l = Some ?u |- _ =>
             pose proof (find_some _ _ Hf) as [Hin _]; exists u
         end.
    all: split; [exact Hin|]; split; [reflexivity|];
      split; [apply has_own_omit|];
      split; [intros k Hk; apply get_omit_other; exact Hk|].
    all: intros Hu; cbn [has_field existsb fst snd String.eqb Ascii.eqb Bool.eqb orb];
      change (existsb _ (omit "password" ?u))
        with (has_field "password" (VObj (omit "password" u)));
      rewrite (has_field_omit_flat _ _ Hu); reflexivity.
  - intros token. unfold validateClientToken. unfold_js. simpl.
    repeat break_match; reflexivity.
  - intros user_id. unfold isUserExist, UserAccount_findById. unfold_js.
    repeat break_match; reflexivity.
Qed.

(** *** Outcomes of the handlers, and how they compose *)

Lemma find_app_none {A} (f : A -> bool) us vs :
  find f us = None -> find f (us ++ vs) = find f vs.
Proof using Type.
  induction us as [|u us IH]; simpl; [reflexivity|].
  destruct (f u); [discriminate | exact IH].
Qed.

Lemma find_app_some {A} (f : A -> bool) us vs d :
  find f us = Some d -> find f (us ++ vs) = Some d.
Proof using Type.
  induction us as [|u us IH]; simpl; [discriminate|].
  destruct (f u); [trivial | exact IH].
Qed.

Lemma string_emails_app us vs :
  string_emails (us ++ vs) = string_emails us ++ string_emails vs.
Proof using Type.
  induction us as [|u us IH]; simpl; [reflexivity|].
  destruct (get "email" u); rewrite IH; reflexivity.
Qed.

Lemma find_none_not_in_emails e us :
  find (field_is "email" e) us = None -> ~ In e (string_emails us).
Proof using Type.
  induction us as [|u us IH]; simpl; [intros _ []|].
  unfold field_is at 1.
  destruct (get "email" u) eqn:E; try exact IH.
  destruct (String.eqb_spec s e); [discriminate|].
  intros H [Hin | Hin]; [contradiction | exact (IH H Hin)].
Qed.

Lemma NoDup_snoc {A} (l : list A) (x : A) :
  NoDup l -> ~ In x l -> NoDup (l ++ [x]).
Proof using Type.
  induction l as [|y l IH]; simpl; intros Hl Hx.
  - constructor; [intros [] | constructor].
  - inversion Hl as [|? ? Hy Hl']; subst. constructor.
    + rewrite in_app_iff. simpl. intros [H | [H | []]]; [exact (Hy H)|].
      apply Hx. left. symmetry. exact H.
    + apply IH; [exact Hl' | intros H; apply Hx; right; exact H].
Qed.

(** The run of a registration that passes validation under an email that is
    free. *)
Lemma createUser_run_fresh req st e p :
  newAccountValidation (get "name" (body req)) (get "email" (body req))
    (get "password" (body req)) = Valid ->
  get "email" (body req) = VStr e ->
  get "password" (body req) = VStr p ->
  find (field_is "email" e) (users st) = None ->
  serve (createUser req) st
  = (Ret tt,
     answered (mkHttp 200 [] (mkEnvelope true 200 VUndefined))
       (with_entropy (S (S (entropy st)))
          (with_users
             (users st
                ++ [[("_id", VStr (objectId (S (entropy st))));
                     ("name", get "name" (body req));
                     ("email", VStr e);
                     ("password", VStr (bcrypt_hash p 10 (entropy st)))]])
             st))).
Proof using Type.
  intros Hv He Hp Hnone. unfold createUser. rewrite Hv, He, Hp.
  unfold UserAccount_findOne, email_filter, bcryptjs_hash. unfold_js. simpl.
  rewrite Hnone. reflexivity.
Qed.

(** The run of a registration that passes validation under an email that is
    taken. *)
Lemma createUser_run_taken req st e d :
  newAccountValidation (get "name" (body req)) (get "email" (body req))
    (get "password" (body req)) = Valid ->
  get "email" (body req) = VStr e ->
  find (field_is "email" e) (users st) = Some d ->
  serve (createUser req) st
  = (Ret tt,
     answered (mkHttp 400 [] (mkEnvelope false 400 (VStr "Email already exists"))) st).
Proof using Type.
  intros Hv He Hfind. unfold createUser. rewrite Hv, He.
  unfold UserAccount_findOne, email_filter. unfold_js. simpl.
  rewrite Hfind. reflexivity.
Qed.

(** The run of a login with the email of an account and a password that
    bcrypt matches against its hash, in a process that has its secret. *)
Lemma loginUser_run_match req st e p u h :
  truthy JWT_SECRET = true ->
  get "email" (body req) = VStr e -> e <> "" ->
  get "password" (body req) = VStr p -> p <> "" ->
  find (field_is "email" e) (users st) = Some u ->
  get "password" u = VStr h ->
  bcrypt_compare p h = true ->
  serve (loginUser req) st
  = (Ret tt,
     answered
       (mkHttp 200
          [mkCookie "access_token"
             (jwt_sign_with (VObj [("email", VStr e)]) JWT_SECRET
                (mkSignOptions "1h") (now st)) true]
          (mkEnvelope true 200 (VObj [("user", VObj (omit "password" u))]))) st).
Proof using Type.
  intros Hsecret He Hne Hp Hnp Hfind Hh Hcmp.
  destruct (find_field_is_some _ _ _ _ Hfind) as [_ Hue].
  unfold loginUser. rewrite !not_truthy, He, Hp.
  assert (Te : truthy (VStr e) = true).
  { destruct (truthy (VStr e)) eqn:E; [reflexivity|].
    apply truthy_str in E. contradiction. }
  assert (Tp : truthy (VStr p) = true).
  { destruct (truthy (VStr p)) eqn:E; [reflexivity|].
    apply truthy_str in E. contradiction. }
  rewrite Te, Tp. simpl.
  unfold UserAccount_findOne, email_filter, bcryptjs_compareSync, jwt_sign.
  rewrite not_truthy, Hsecret.
  unfold_js. simpl.
  rewrite Hfind, Hh. simpl. rewrite Hcmp, Hue. reflexivity.
Qed.

(** The run of the same login in a process without a secret: signing throws
    and nothing is sent. *)
Lemma loginUser_without_secret_run req st e p u h :
  truthy JWT_SECRET = false ->
  get "email" (body req) = VStr e -> e <> "" ->
  get "password" (body req) = VStr p -> p <> "" ->
  find (field_is "email" e) (users st) = Some u ->
  get "password" u = VStr h ->
  bcrypt_compare p h = true ->
  serve (loginUser req) st
  = (Throw (Error "secretOrPrivateKey must have a value"), with_res fresh_res st).
Proof using Type.
  intros Hsecret He Hne Hp Hnp Hfind Hh Hcmp.
  unfold loginUser. rewrite !not_truthy, He, Hp.
  assert (Te : truthy (VStr e) = true).
  { destruct (truthy (VStr e)) eqn:E; [reflexivity|].
    apply truthy_str in E. contradiction. }
  assert (Tp : truthy (VStr p) = true).
  { destruct (truthy (VStr p)) eqn:E; [reflexivity|].
    apply truthy_str in E. contradiction. }
  rewrite Te, Tp. simpl.
  unfold UserAccount_findOne, email_filter, bcryptjs_compareSync, jwt_sign.
  rewrite not_truthy, Hsecret.
  unfold_js. simpl.
  rewrite Hfind, Hh. simpl. rewrite Hcmp. reflexivity.
Qed.

(** X1: a registration ends in one of three ways.  It throws, and then
    nothing was sent and nothing changed; or it answers 400 with a message,
    and then no account was added and no hash was computed; or it answers 200
    without data, and then exactly one account was appended, holding the name
    and email of the request and, as password, the cost-10 hash of the
    request's password.  The accounts that were there stay as they were. *)
Theorem createUser_outcomes :
  forall req st,
    (exists e, serve (createUser req) st = (Throw e, with_res fresh_res st))
    \/ (exists message,
          serve (createUser req) st
          = (Ret tt,
             answered (mkHttp 400 [] (mkEnvelope false 400 (VStr message))) st))
    \/ (exists p,
          get "password" (body req) = VStr p
          /\ serve (createUser req) st
             = (Ret tt,
                answered (mkHttp 200 [] (mkEnvelope true 200 VUndefined))
                  (with_entropy (S (S (entropy st)))
                     (with_users
                        (users st
                           ++ [[("_id", VStr (objectId (S (entropy st))));
                                ("name", get "name" (body req));
                                ("email", get "email" (body req));
                                ("password",
                                 VStr (bcrypt_hash p 10 (entropy st)))]])
                        st)))).
Proof using Type.
  intros req st. destruct st as [us c n t r].
  unfold createUser, UserAccount_findOne, email_filter, bcryptjs_hash.
  unfold_js. simpl.
  repeat break_match;
    first [ left; eexists; reflexivity
          | right; left; eexists; reflexivity
          | right; right; eexists; split; reflexivity ].
Qed.

(** X5: registration and login compose.  After a registration that passes
    validation, with a non-empty string email that was free and a non-empty
    string password, a login with that email and password is answered 200,
    sets the access_token cookie and carries the new account without its
    password, provided the process has its secret and bcrypt matches the
    password against the hash it made of it. *)
Theorem register_then_login_succeeds :
  forall reg req st e p,
    truthy JWT_SECRET = true ->
    newAccountValidation (get "name" (body reg)) (get "email" (body reg))
      (get "password" (body reg)) = Valid ->
    get "email" (body reg) = VStr e -> e <> "" ->
    get "password" (body reg) = VStr p -> p <> "" ->
    (forall d, In d (users st) -> get "email" d <> VStr e) ->
    bcrypt_compare p (bcrypt_hash p 10 (entropy st)) = true ->
    get "email" (body req) = VStr e ->
    get "password" (body req) = VStr p ->
    let st1 := snd (serve (createUser reg) st) in
    serve (loginUser req) st1
    = (Ret tt,
       answered
         (mkHttp 200
            [mkCookie "access_token"
               (jwt_sign_with (VObj [("email", VStr e)]) JWT_SECRET
                  (mkSignOptions "1h") (now st)) true]
            (mkEnvelope true 200
               (VObj [("user",
                       VObj [("_id", VStr (objectId (S (entropy st))));
                             ("name", get "name" (body reg));
                             ("email", VStr e)])]))) st1).
Proof using Type.
  intros reg req st e p Hsecret Hv He Hne Hp Hnp Hfree Hcmp Hle Hlp st1.
  pose proof (find_field_is_none _ _ _ Hfree) as Hnone.
  set (newUser := [("_id", VStr (objectId (S (entropy st))));
                   ("name", get "name" (body reg));
                   ("email", VStr e);
                   ("password", VStr (bcrypt_hash p 10 (entropy st)))]).
  assert (Hst1 : users st1 = users st ++ [newUser] /\ now st1 = now st).
  { unfold st1. rewrite (createUser_run_fresh reg st e p Hv He Hp Hnone).
    split; reflexivity. }
  destruct Hst1 as [Hus Hnow].
  assert (Hfind : find (field_is "email" e) (users st1) = Some newUser).
  { rewrite Hus, (find_app_none _ _ _ Hnone). cbn [find].
    unfold field_is, newUser. cbn [get String.eqb Ascii.eqb Bool.eqb].
    rewrite String.eqb_refl. reflexivity. }
  rewrite (loginUser_run_match req st1 e p newUser
             (bcrypt_hash p 10 (entropy st)) Hsecret Hle Hne Hlp Hnp Hfind
             eq_refl Hcmp).
  rewrite Hnow. reflexivity.
Qed.

(** X6: a second registration under the same email is refused.  After a
    registration that succeeded under a string email, every further request
    that passes validation under that email is answered 400 'Email already
    exists' and adds no account. *)
Theorem register_twice_refused :
  forall reg again st e p,
    newAccountValidation (get "name" (body reg)) (get "email" (body reg))
      (get "password" (body reg)) = Valid ->
    get "email" (body reg) = VStr e ->
    get "password" (body reg) = VStr p ->
    (forall d, In d (users st) -> get "email" d <> VStr e) ->
    newAccountValidation (get "name" (body again)) (get "email" (body again))
      (get "password" (body again)) = Valid ->
    get "email" (body again) = VStr e ->
    let st1 := snd (serve (createUser reg) st) in
    serve (createUser again) st1
    = (Ret tt,
       answered (mkHttp 400 [] (mkEnvelope false 400 (VStr "Email already exists")))
         st1)
    /\ users (snd (serve (createUser again) st1)) = users st1
    /\ length (users st1) = S (length (users st)).
Proof using Type.
  intros reg again st e p Hv He Hp Hfree Hv2 He2 st1.
  pose proof (find_field_is_none _ _ _ Hfree) as Hnone.
  assert (Hst1 : users st1
                 = users st
                     ++ [[("_id", VStr (objectId (S (entropy st))));
                          ("name", get "name" (body reg));
                          ("email", VStr e);
                          ("password", VStr (bcrypt_hash p 10 (entropy st)))]]).
  { unfold st1. rewrite (createUser_run_fresh reg st e p Hv He Hp Hnone).
    reflexivity. }
  assert (Hfind : exists d, find (field_is "email" e) (users st1) = Some d).
  { rewrite Hst1, (find_app_none _ _ _ Hnone). cbn [find].
    unfold field_is. cbn [get String.eqb Ascii.eqb Bool.eqb].
    rewrite String.eqb_refl. eauto. }
  destruct Hfind as [d Hfind].
  rewrite (createUser_run_taken again st1 e d Hv2 He2 Hfind).
  split; [reflexivity|]. split; [reflexivity|].
  rewrite Hst1, length_app. simpl. lia.
Qed.

(** X2: a login ends in one of three ways.  It throws, and then nothing was
    sent and nothing changed; or it sends one failure response, 400, 404 or
    401, with a message and without a cookie; or it sends 200 with the
    access_token cookie and an account of the collection without its
    password.  The status of the response is always the status in its
    envelope, and nothing but the response object changes. *)
Theorem loginUser_outcomes :
  forall req st,
    (exists e, serve (loginUser req) st = (Throw e, with_res fresh_res st))
    \/ (exists code message,
          In code [400; 404; 401]
          /\ serve (loginUser req) st
             = (Ret tt,
                answered (mkHttp code [] (mkEnvelope false code (VStr message))) st))
    \/ (exists token u,
          In u (users st)
          /\ serve (loginUser req) st
             = (Ret tt,
                answered
                  (mkHttp 200 [mkCookie "access_token" token true]
                     (mkEnvelope true 200
                        (VObj [("user", VObj (omit "password" u))]))) st)).
Proof using Type.
  intros req st. destruct st as [us c n t r].
  unfold loginUser, UserAccount_findOne, email_filter, bcryptjs_compareSync.
  unfold_js. simpl.
  repeat break_match;
    try match goal with
        | H : find _ _ = Some _ |- _ => apply find_some in H; destruct H as [H _]
        end;
    first [ left; eexists; reflexivity
          | right; left; do 2 eexists; split;
            [|reflexivity]; simpl; auto
          | right; right; do 2 eexists; split; [eassumption | reflexivity] ].
Qed.

(** X3: verify-token never throws: on every request it sends exactly one
    response, 400 'Empty token!', 403 'Invalid or expired token' or 200 'Token
    accepted', sets no cookie and changes nothing but the response object. *)
Theorem isTokenOk_total :
  forall req st,
    exists code ok message,
      In (code, ok, message)
         [(400, false, "Empty token!");
          (403, false, "Invalid or expired token");
          (200, true, "Token accepted")]
      /\ serve (isTokenOk req) st
         = (Ret tt,
            answered (mkHttp code [] (mkEnvelope ok code (VStr message))) st).
Proof using Type.
  intros req st. destruct st as [us c n t r].
  unfold isTokenOk. unfold_js. simpl.
  repeat break_match; do 3 eexists; (split; [|reflexivity]); simpl; auto.
Qed.

(** X4: the two ways of checking a token agree.  On the token a request
    carries in its access_token cookie, validateClientToken returns true
    exactly when isTokenOk answers 200, returns false exactly when it answers
    403, and throws 'Empty Token' exactly when it answers 400. *)
Theorem token_checks_agree :
  forall req st,
    let token := get "access_token" (req_cookies req) in
    let answer := map http_status (sent (res (snd (serve (isTokenOk req) st)))) in
    (fst (validateClientToken token st) = Ret true <-> answer = [200])
    /\ (fst (validateClientToken token st) = Ret false <-> answer = [403])
    /\ (fst (validateClientToken token st) = Throw (Error "Empty Token")
        <-> answer = [400]).
Proof using Type.
  intros req st token answer. unfold answer, validateClientToken, isTokenOk.
  fold token. destruct st as [us c n t r]. unfold_js. simpl.
  destruct (JS.not token); simpl.
  - repeat split; intros H; try discriminate H; reflexivity.
  - destruct (jwt_verify_with token JWT_SECRET t); simpl;
      repeat split; intros H; try discriminate H; reflexivity.
Qed.

(** X7: login and verify-token compose.  When a client sends back the cookies
    that a successful login set, verify-token reads the token that login
    signed; it answers 200 'Token accepted' when that token is not empty and
    jsonwebtoken verifies it at that time, and validateClientToken then
    returns true on it. *)
Theorem login_then_verify :
  forall req back st st2 e p u h r d,
    get "email" (body req) = VStr e -> e <> "" ->
    get "password" (body req) = VStr p -> p <> "" ->
    find (field_is "email" e) (users st) = Some u ->
    get "password" u = VStr h ->
    bcrypt_compare p h = true ->
    let token :=
      jwt_sign_with (VObj [("email", VStr e)]) JWT_SECRET (mkSignOptions "1h") (now st) in
    sent (res (snd (serve (loginUser req) st))) = [r] ->
    req_cookies back = cookies_sent_back r ->
    token <> "" ->
    jwt_verify_with (VStr token) JWT_SECRET (now st2) = Verified d ->
    get "access_token" (req_cookies back) = VStr token
    /\ serve (isTokenOk back) st2
       = (Ret tt,
          answered (mkHttp 200 [] (mkEnvelope true 200 (VStr "Token accepted"))) st2)
    /\ fst (validateClientToken (VStr token) st2) = Ret true.
Proof using Type.
  intros req back st st2 e p u h r d He Hne Hp Hnp Hfind Hh Hcmp token
    Hsent Hback Htok Hver.
  destruct (truthy JWT_SECRET) eqn:Hsecret.
  2: { rewrite (loginUser_without_secret_run req st e p u h
                  Hsecret He Hne Hp Hnp Hfind Hh Hcmp) in Hsent.
       discriminate Hsent. }
  rewrite (loginUser_run_match req st e p u h Hsecret He Hne Hp Hnp Hfind Hh Hcmp)
    in Hsent.
  cbn in Hsent. injection Hsent as <-.
  set (signed := jwt_sign_with (VObj [("email", VStr e)]) JWT_SECRET
                   (mkSignOptions "1h") (now st)) in *.
  subst token. clearbody signed. destruct st2 as [us2 c2 n2 t2 r2].
  simpl in Hver.
  assert (Hget : get "access_token" (req_cookies back) = VStr signed).
  { rewrite Hback. reflexivity. }
  assert (Ht : JS.not (VStr signed) = false).
  { rewrite not_truthy. destruct (truthy (VStr signed)) eqn:E; [reflexivity|].
    apply truthy_str in E. contradiction. }
  split; [exact Hget|]. split.
  - unfold isTokenOk. rewrite Hget, Ht. unfold_js. simpl. rewrite Hver.
    reflexivity.
  - unfold validateClientToken. unfold_js. simpl. rewrite Ht. simpl.
    rewrite Hver. reflexivity.
Qed.

(** X13: the two helper queries only read.  validateClientToken changes the
    console and nothing else; isUserExist changes nothing; both also when they
    throw. *)
Theorem helper_queries_read_only :
  (forall token st,
     with_console (console st) (snd (validateClientToken token st)) = st)
  /\ (forall user_id st, snd (isUserExist user_id st) = st).
Proof using Type.
  split.
  - intros token st. destruct st as [us c n t r].
    unfold validateClientToken. unfold_js. simpl.
    repeat break_match; reflexivity.
  - intros user_id st. unfold isUserExist, UserAccount_findById. unfold_js.
    repeat break_match; reflexivity.
Qed.

(** X10: login checks that the password is truthy, not that it is a string.
    With the email of an account and a truthy password that is not a string
    (a number, [true], an object), the handler body sends no response: the
    comparison of bcryptjs throws 'Illegal arguments' with the types of its
    two arguments. *)
Theorem loginUser_non_string_password :
  forall req st e u password,
    get "email" (body req) = VStr e -> e <> "" ->
    get "password" (body req) = password ->
    truthy password = true ->
    (forall p, password <> VStr p) ->
    find (field_is "email" e) (users st) = Some u ->
    serve (loginUser req) st
    = (Throw (Error ("Illegal arguments: " ++ typeof password ++ ", "
                       ++ typeof (get "password" u))%string),
       with_res fresh_res st).
Proof using Type.
  intros req st e u password He Hne Hp Ht Hns Hfind.
  unfold loginUser. rewrite !not_truthy, He, Hp, Ht.
  assert (Te : truthy (VStr e) = true).
  { destruct (truthy (VStr e)) eqn:E; [reflexivity|].
    apply truthy_str in E. contradiction. }
  rewrite Te. simpl.
  unfold UserAccount_findOne, email_filter, bcryptjs_compareSync.
  unfold_js. simpl. rewrite Hfind.
  destruct password; try reflexivity.
  exfalso. exact (Hns s eq_refl).
Qed.

(** X8: registration and lookup by identifier compose.  After a registration
    that succeeded, isUserExist on the identifier of the new account returns
    that account as it was stored, hashed password included, provided no
    earlier account has that identifier. *)
Theorem register_then_find_by_id :
  forall reg st e p user_id,
    newAccountValidation (get "name" (body reg)) (get "email" (body reg))
      (get "password" (body reg)) = Valid ->
    get "email" (body reg) = VStr e ->
    get "password" (body reg) = VStr p ->
    (forall d, In d (users st) -> get "email" d <> VStr e) ->
    castObjectId user_id = Some (objectId (S (entropy st))) ->
    (forall d, In d (users st) ->
               get "_id" d <> VStr (objectId (S (entropy st)))) ->
    let st1 := snd (serve (createUser reg) st) in
    isUserExist user_id st1
    = (Ret (Some [("_id", VStr (objectId (S (entropy st))));
                  ("name", get "name" (body reg));
                  ("email", VStr e);
                  ("password", VStr (bcrypt_hash p 10 (entropy st)))]),
       st1).
Proof using Type.
  intros reg st e p user_id Hv He Hp Hfree Hcast Hid st1.
  pose proof (find_field_is_none _ _ _ Hfree) as Hnone.
  pose proof (find_field_is_none _ _ _ Hid) as Hnoid.
  unfold st1. rewrite (createUser_run_fresh reg st e p Hv He Hp Hnone).
  unfold isUserExist, UserAccount_findById. rewrite Hcast. unfold_js.
  cbn [snd users]. rewrite (find_app_none _ _ _ Hnoid). cbn [find].
  unfold field_is. cbn [get String.eqb Ascii.eqb Bool.eqb].
  rewrite String.eqb_refl. reflexivity.
Qed.

(** What a login under a string email answers depends on the collection only
    through the first account with that email. *)
Lemma loginUser_depends_on_lookup req st st' e :
  get "email" (body req) = VStr e ->
  find (field_is "email" e) (users st) = find (field_is "email" e) (users st') ->
  now st = now st' ->
  fst (serve (loginUser req) st) = fst (serve (loginUser req) st')
  /\ res (snd (serve (loginUser req) st)) = res (snd (serve (loginUser req) st')).
Proof using Type.
  intros He Hfind Hnow.
  destruct st as [us c n t r], st' as [us' c' n' t' r'].
  simpl in Hfind, Hnow. subst t'.
  unfold loginUser, UserAccount_findOne, email_filter, bcryptjs_compareSync.
  rewrite He.
  destruct (JS.not (VStr e) || JS.not (get "password" (body req)));
    [split; reflexivity|].
  unfold_js. simpl. rewrite <- Hfind.
  repeat break_match; split; reflexivity.
Qed.

(** What a registration does to the collection and the clock: it appends at
    most one account and leaves the clock alone. *)
Lemma createUser_appends req st :
  now (snd (serve (createUser req) st)) = now st
  /\ (users (snd (serve (createUser req) st)) = users st
      \/ exists d, users (snd (serve (createUser req) st)) = users st ++ [d]).
Proof using Type.
  destruct st as [us c n t r].
  unfold createUser, UserAccount_findOne, email_filter, bcryptjs_hash.
  unfold_js. simpl.
  repeat break_match; split; try reflexivity;
    first [ left; reflexivity | right; eexists; reflexivity ].
Qed.

(** X9: a registration does not change what an existing account's login
    answers.  When some account has the string email of a login request, the
    outcome and the response of that login are the same after any
    registration request as before it. *)
Theorem login_stable_under_registration :
  forall reg req st e u,
    get "email" (body req) = VStr e ->
    find (field_is "email" e) (users st) = Some u ->
    let st1 := snd (serve (createUser reg) st) in
    fst (serve (loginUser req) st1) = fst (serve (loginUser req) st)
    /\ res (snd (serve (loginUser req) st1)) = res (snd (serve (loginUser req) st)).
Proof using Type.
  intros reg req st e u He Hfind st1.
  destruct (createUser_appends reg st) as [Hnow Hus]. fold st1 in Hnow, Hus.
  apply (loginUser_depends_on_lookup req st1 st e He); [|exact Hnow].
  rewrite Hfind. destruct Hus as [-> | [d ->]]; [exact Hfind|].
  apply find_app_some. exact Hfind.
Qed.

(** What one call does to the collection: it appends nothing, or one account
    whose password field is a cost-10 hash. *)
Lemma handle_appends c st :
  users (snd (serve (handle c) st)) = users st
  \/ exists d p n,
       users (snd (serve (handle c) st)) = users st ++ [d]
       /\ get "password" d = VStr (bcrypt_hash p 10 n).
Proof using Type.
  destruct st as [us cn n t r]. destruct c as [req | req | req]; simpl handle.
  - unfold createUser, UserAccount_findOne, email_filter, bcryptjs_hash.
    unfold_js. simpl.
    repeat break_match;
      first [ left; reflexivity
            | right; do 3 eexists; split; reflexivity ].
  - left.
    unfold loginUser, UserAccount_findOne, email_filter, bcryptjs_compareSync.
    unfold_js. simpl.
    repeat break_match; reflexivity.
  - left. unfold isTokenOk. unfold_js. simpl.
    repeat break_match; reflexivity.
Qed.

(** X11: over any sequence of requests to register, login and verify-token,
    accounts are only appended: the collection at the start is a prefix of
    the collection at the end, and every account added since holds a cost-10
    bcrypt hash as its password. *)
Theorem accounts_only_appended :
  forall cs st,
    exists added,
      users (serve_all cs st) = users st ++ added
      /\ Forall (fun d => exists p n, get "password" d = VStr (bcrypt_hash p 10 n))
           added
      /\ (length added <= length cs)%nat.
Proof using Type.
  induction cs as [|c cs IH]; intros st; simpl serve_all.
  - exists []. rewrite app_nil_r. repeat split; [constructor | apply Nat.le_refl].
  - destruct (IH (snd (serve (handle c) st))) as [added [Hus [Hall Hlen]]].
    destruct (handle_appends c st) as [Hsame | [d [p [n [Happ Hd]]]]].
    + exists added. rewrite Hus, Hsame. repeat split; [exact Hall|].
      simpl. apply Nat.le_le_succ_r. exact Hlen.
    + exists (d :: added). rewrite Hus, Happ, <- app_assoc. repeat split.
      * constructor; [exists p, n; exact Hd | exact Hall].
      * simpl. apply le_n_S. exact Hlen.
Qed.

(** X12: over any sequence of requests in which the registrations carry
    string emails, the emails of the collection stay distinct when they were
    distinct at the start. *)
Theorem emails_stay_unique :
  forall cs st,
    Forall registers_string_email cs ->
    NoDup (string_emails (users st)) ->
    NoDup (string_emails (users (serve_all cs st))).
Proof using Type.
  induction cs as [|c cs IH]; intros st Hcs Hnd; simpl serve_all; [exact Hnd|].
  inversion Hcs as [|? ? Hc Hcs']; subst.
  apply IH; [exact Hcs'|].
  destruct c as [req | req | req]; simpl handle.
  - destruct Hc as [e He]. destruct st as [us cn n t r]. simpl in Hnd.
    unfold createUser, UserAccount_findOne, email_filter, bcryptjs_hash.
    rewrite He. unfold_js. simpl.
    repeat break_match; try exact Hnd.
    rewrite string_emails_app. simpl.
    apply NoDup_snoc; [exact Hnd|].
    apply find_none_not_in_emails. assumption.
  - destruct (handle_appends (Login req) st) as [Hsame | [d [p [n [Happ _]]]]].
    + simpl handle in Hsame. rewrite Hsame. exact Hnd.
    + exfalso. revert Happ. destruct st as [us cn n0 t r].
      unfold handle, loginUser, UserAccount_findOne, email_filter,
        bcryptjs_compareSync.
      unfold_js. simpl.
      repeat break_match; simpl; intros H;
        apply (f_equal (@length Doc)) in H; rewrite length_app in H;
        simpl in H; lia.
  - destruct (handle_appends (VerifyToken req) st) as [Hsame | [d [p [n [Happ _]]]]].
    + simpl handle in Hsame. rewrite Hsame. exact Hnd.
    + exfalso. revert Happ. destruct st as [us cn n0 t r].
      unfold handle, isTokenOk. unfold_js. simpl.
      repeat break_match; simpl; intros H;
        apply (f_equal (@length Doc)) in H; rewrite length_app in H;
        simpl in H; lia.
Qed.

End Controller.

(** ** The theorems on the small instance *)

Local Notation sample_createUser :=
  (createUser Sample.validate Sample.hash Sample.oid Sample.cast_filter).
Local Notation sample_loginUser :=
  (loginUser Sample.compare Sample.secret Sample.sign Sample.cast_filter).
Local Notation sample_isTokenOk := (isTokenOk Sample.secret Sample.verify).
Local Notation sample_validateClientToken :=
  (validateClientToken Sample.secret Sample.verify).
Local Notation sample_isUserExist := (isUserExist Sample.cast_id).

Local Notation alice_without_password :=
  [("_id", VStr "64b7f0a1c2d3e4f5a6b7c8d9");
   ("name", VStr "Alice");
   ("email", VStr "a@x.com")].

(** The scenario of the specification, run from the empty collection: Alice
    registers; a second registration under her email is refused; she logs in
    and gets the cookie; a wrong password is refused. *)
Example register_then_login :
  let st1 := snd (serve (sample_createUser
                           (Sample.register "Alice" "a@x.com" "Secret123!"))
                    Sample.empty_store) in
  let st2 := snd (serve (sample_createUser
                           (Sample.register "Alice2" "a@x.com" "Other456!")) st1) in
  let st3 := snd (serve (sample_loginUser (Sample.login "a@x.com" "Secret123!")) st2) in
  let st4 := snd (serve (sample_loginUser (Sample.login "a@x.com" "wrong")) st3) in
  map http_status (sent (res st1)) = [200]
  /\ bodies (Ret tt, st2) = [mkEnvelope false 400 (VStr "Email already exists")]
  /\ map http_status (sent (res st3)) = [200]
  /\ map cookie_name (cookies (res st3)) = ["access_token"]
  /\ bodies (Ret tt, st4) = [mkEnvelope false 401 (VStr "Incorrect password")]
  /\ length (users st4) = 1%nat.
Proof. repeat split. Qed.

(** The sample account logs in with its password in a process whose secret
    is unset, and in one whose secret is empty: signing throws and nothing is
    sent. *)
Example login_without_secret :
  serve (loginUser Sample.compare VUndefined Sample.sign Sample.cast_filter
           (Sample.login "a@x.com" "Secret123!")) Sample.one_account
  = (Throw (Error "secretOrPrivateKey must have a value"), Sample.one_account)
  /\ serve (loginUser Sample.compare (VStr "") Sample.sign Sample.cast_filter
              (Sample.login "a@x.com" "Secret123!")) Sample.one_account
     = (Throw (Error "secretOrPrivateKey must have a value"), Sample.one_account).
Proof. split; reflexivity. Qed.

(** The validating token helper on an absent token, a malformed one and the
    one the sample verifier accepts. *)
Lemma validateClientToken_contract_witness :
  fst (sample_validateClientToken VUndefined Sample.empty_store)
  = Throw (Error "Empty Token")
  /\ fst (sample_validateClientToken (VStr "garbage") Sample.empty_store) = Ret false
  /\ fst (sample_validateClientToken (VStr "jwt.a@x.com.s3cret") Sample.empty_store)
     = Ret true.
Proof.
  split; [|split].
  - exact (proj1 (proj2 (validateClientToken_contract Sample.secret Sample.verify
                           VUndefined Sample.empty_store)) eq_refl).
  - exact (proj2 (proj2 (proj2 (proj2 (proj2
             (validateClientToken_contract Sample.secret Sample.verify
                (VStr "garbage") Sample.empty_store)))) eq_refl)
             (JsonWebTokenError "jwt malformed") eq_refl).
  - exact (proj1 (proj2 (proj2 (proj2 (proj2
             (validateClientToken_contract Sample.secret Sample.verify
                (VStr "jwt.a@x.com.s3cret") Sample.empty_store)))) eq_refl)
             (VObj [("email", VStr "a@x.com")]) eq_refl).
Defined.

(** Verify-token without a cookie, with a malformed one and with a good one. *)
Lemma isTokenOk_responses_witness :
  bodies (serve (sample_isTokenOk Sample.no_cookie) Sample.empty_store)
  = [mkEnvelope false 400 (VStr "Empty token!")]
  /\ bodies (serve (sample_isTokenOk (Sample.with_cookie "garbage")) Sample.empty_store)
     = [mkEnvelope false 403 (VStr "Invalid or expired token")]
  /\ bodies (serve (sample_isTokenOk (Sample.with_cookie "jwt.a@x.com.s3cret"))
               Sample.empty_store)
     = [mkEnvelope true 200 (VStr "Token accepted")].
Proof.
  split; [|split].
  - rewrite (proj1 (isTokenOk_responses Sample.secret Sample.verify
                      Sample.no_cookie Sample.empty_store) (or_introl eq_refl)).
    reflexivity.
  - rewrite (proj1 (proj2 (isTokenOk_responses Sample.secret Sample.verify
                             (Sample.with_cookie "garbage") Sample.empty_store))
               eq_refl (JsonWebTokenError "jwt malformed") eq_refl).
    reflexivity.
  - rewrite (proj2 (proj2 (isTokenOk_responses Sample.secret Sample.verify
                             (Sample.with_cookie "jwt.a@x.com.s3cret")
                             Sample.empty_store))
               eq_refl (VObj [("email", VStr "a@x.com")]) eq_refl).
    reflexivity.
Defined.

Lemma alice_only_has_her_email :
  forall d, In d (users Sample.one_account) -> get "email" d <> VStr "b@x.com".
Proof. intros d [<- | []]. discriminate. Qed.

(** Login without a password, with an unknown email and with a wrong
    password. *)
Lemma loginUser_failure_branches_witness :
  bodies (serve (sample_loginUser (Sample.login "a@x.com" "")) Sample.one_account)
  = [mkEnvelope false 400 (VStr "Email and password are required")]
  /\ bodies (serve (sample_loginUser (Sample.login "b@x.com" "Secret123!"))
               Sample.one_account)
     = [mkEnvelope false 404 (VStr "User not found")]
  /\ bodies (serve (sample_loginUser (Sample.login "a@x.com" "wrong"))
               Sample.one_account)
     = [mkEnvelope false 401 (VStr "Incorrect password")].
Proof.
  split; [|split].
  - rewrite (proj1 (loginUser_failure_branches Sample.compare Sample.secret
                      Sample.sign Sample.cast_filter
                      (Sample.login "a@x.com" "") Sample.one_account)
               (or_intror eq_refl)).
    reflexivity.
  - rewrite (proj1 (proj2 (loginUser_failure_branches Sample.compare Sample.secret
                             Sample.sign Sample.cast_filter
                             (Sample.login "b@x.com" "Secret123!")
                             Sample.one_account))
               eq_refl eq_refl "b@x.com" eq_refl alice_only_has_her_email).
    reflexivity.
  - rewrite (proj1 (proj2 (proj2 (loginUser_failure_branches Sample.compare
                                    Sample.secret Sample.sign Sample.cast_filter
                                    (Sample.login "a@x.com" "wrong")
                                    Sample.one_account))
               eq_refl eq_refl "a@x.com" "wrong" Sample.alice "$2a$10$Secret123!"
               eq_refl eq_refl eq_refl eq_refl eq_refl)).
    reflexivity.
Defined.

Lemma nonempty_email : "a@x.com" <> "".
Proof. discriminate. Qed.

Lemma nonempty_password : "Secret123!" <> "".
Proof. discriminate. Qed.

(** Login of the sample account with its password. *)
Lemma loginUser_success_witness :
  serve (sample_loginUser (Sample.login "a@x.com" "Secret123!")) Sample.one_account
  = (Ret tt,
     answered
       (mkHttp 200 [mkCookie "access_token" "jwt.a@x.com.s3cret" true]
          (mkEnvelope true 200 (VObj [("user", VObj alice_without_password)])))
       Sample.one_account).
Proof.
  exact (proj2 (proj2
    (loginUser_success Sample.compare Sample.secret Sample.sign Sample.cast_filter
       (Sample.login "a@x.com" "Secret123!") Sample.one_account
       "a@x.com" "Secret123!" Sample.alice "$2a$10$Secret123!"
       eq_refl eq_refl nonempty_email eq_refl nonempty_password eq_refl eq_refl
       eq_refl))).
Defined.

(** A second registration under the email of the sample account. *)
Lemma createUser_duplicate_email_witness :
  serve (sample_createUser (Sample.register "Alice2" "a@x.com" "Other456!"))
    Sample.one_account
  = (Ret tt,
     answered (mkHttp 400 [] (mkEnvelope false 400 (VStr "Email already exists")))
       Sample.one_account).
Proof.
  exact (createUser_duplicate_email Sample.validate Sample.hash Sample.oid
           Sample.cast_filter
           (Sample.register "Alice2" "a@x.com" "Other456!") Sample.one_account
           "a@x.com" Sample.alice eq_refl eq_refl (or_introl eq_refl) eq_refl).
Defined.

(** C3 as the spec states it fails: the email of the request belongs to the
    sample account, the name is empty, and the answer is 400 with the message
    of the validation, not 'Email already exists'. *)
Lemma createUser_duplicate_email_counterexample :
  In Sample.alice (users Sample.one_account)
  /\ get "email" Sample.alice
     = get "email" (body (Sample.register "" "a@x.com" "Other456!"))
  /\ bodies (serve (sample_createUser (Sample.register "" "a@x.com" "Other456!"))
               Sample.one_account)
     = [mkEnvelope false 400 (VStr "Name is required")]
  /\ serve (sample_createUser (Sample.register "" "a@x.com" "Other456!"))
       Sample.one_account
     <> (Ret tt,
         answered (mkHttp 400 [] (mkEnvelope false 400 (VStr "Email already exists")))
           Sample.one_account).
Proof.
  split; [left; reflexivity|]. split; [reflexivity|]. split; [reflexivity|].
  intros H. discriminate H.
Qed.

Lemma nobody_registered_yet :
  forall d, In d (users Sample.empty_store) -> get "email" d <> VStr "a@x.com".
Proof. intros d []. Qed.

Lemma sample_hash_differs : Sample.hash "Secret123!" 10 0 <> "Secret123!".
Proof. discriminate. Qed.

(** The first registration on the empty collection. *)
Lemma createUser_success_witness :
  serve (sample_createUser (Sample.register "Alice" "a@x.com" "Secret123!"))
    Sample.empty_store
  = (Ret tt,
     answered (mkHttp 200 [] (mkEnvelope true 200 VUndefined))
       (mkState
          [[("_id", VStr "aaaaaaaaaaaaaaaaaaaaaaab");
            ("name", VStr "Alice");
            ("email", VStr "a@x.com");
            ("password", VStr "$2a$10$Secret123!")]]
          [] 2 1700000000 fresh_res))
  /\ get "password"
       [("_id", VStr (Sample.oid 1));
        ("name", VStr "Alice");
        ("email", VStr "a@x.com");
        ("password", VStr (Sample.hash "Secret123!" 10 0))]
     <> VStr "Secret123!".
Proof.
  pose proof (createUser_success Sample.validate Sample.hash Sample.oid
                Sample.cast_filter
                (Sample.register "Alice" "a@x.com" "Secret123!") Sample.empty_store
                "a@x.com" "Secret123!" eq_refl eq_refl eq_refl
                nobody_registered_yet) as [Hrun [_ Hplain]].
  split; [exact Hrun | exact (Hplain sample_hash_differs)].
Defined.

Lemma nobody_has_that_id :
  forall d, In d (users Sample.one_account) ->
            get "_id" d <> VStr "000000000000000000000000".
Proof. intros d [<- | []]. discriminate. Qed.

(** Looking up the sample account by its identifier, and an identifier that
    no account has. *)
Lemma isUserExist_contract_witness :
  (exists user,
     sample_isUserExist (VStr "64b7f0a1c2d3e4f5a6b7c8d9") Sample.one_account
     = (Ret (Some user), Sample.one_account)
     /\ In user (users Sample.one_account)
     /\ get "_id" user = VStr "64b7f0a1c2d3e4f5a6b7c8d9")
  /\ sample_isUserExist (VStr "000000000000000000000000") Sample.one_account
     = (Ret None, Sample.one_account).
Proof.
  split.
  - exact (proj1 (isUserExist_contract Sample.cast_id
                    (VStr "64b7f0a1c2d3e4f5a6b7c8d9") "64b7f0a1c2d3e4f5a6b7c8d9"
                    Sample.one_account eq_refl)
             Sample.alice (or_introl eq_refl) eq_refl).
  - exact (proj2 (isUserExist_contract Sample.cast_id
                    (VStr "000000000000000000000000") "000000000000000000000000"
                    Sample.one_account eq_refl)
             nobody_has_that_id).
Defined.

(** The body of the successful login of the sample account has no password
    field. *)
Lemma no_password_in_responses_witness :
  bodies (serve (sample_loginUser (Sample.login "a@x.com" "Secret123!"))
            Sample.one_account)
  = [mkEnvelope true 200 (VObj [("user", VObj alice_without_password)])]
  /\ exists u,
       In u (users Sample.one_account)
       /\ VObj [("user", VObj alice_without_password)]
          = VObj [("user", VObj (omit "password" u))]
       /\ has_own "password" (omit "password" u) = false
       /\ (forall k, k <> "password" -> get k (omit "password" u) = get k u)
       /\ (flat_doc u = true ->
           has_field "password" (VObj [("user", VObj alice_without_password)])
           = false).
Proof.
  split; [reflexivity|].
  exact (proj2 (proj1 (proj2 (proj2
           (no_password_in_responses Sample.validate Sample.hash Sample.compare
              Sample.secret Sample.sign Sample.verify Sample.oid Sample.cast_id
              Sample.cast_filter
              (Sample.login "a@x.com" "Secret123!") Sample.one_account)))
           (mkEnvelope true 200 (VObj [("user", VObj alice_without_password)]))
           (or_introl eq_refl)) eq_refl).
Defined.

(** ** The further theorems on the small instance *)

Lemma alice_is_alone : NoDup (string_emails (users Sample.one_account)).
Proof. repeat constructor. simpl. tauto. Qed.

(** Alice registers on the empty collection and logs in. *)
Lemma register_then_login_succeeds_witness :
  bodies (serve (sample_loginUser (Sample.login "a@x.com" "Secret123!"))
            (snd (serve (sample_createUser
                           (Sample.register "Alice" "a@x.com" "Secret123!"))
                    Sample.empty_store)))
  = [mkEnvelope true 200
       (VObj [("user",
               VObj [("_id", VStr "aaaaaaaaaaaaaaaaaaaaaaab");
                     ("name", VStr "Alice");
                     ("email", VStr "a@x.com")])])].
Proof.
  rewrite (register_then_login_succeeds Sample.validate Sample.hash
             Sample.compare Sample.secret Sample.sign Sample.oid
             Sample.cast_filter
             (Sample.register "Alice" "a@x.com" "Secret123!")
             (Sample.login "a@x.com" "Secret123!") Sample.empty_store
             "a@x.com" "Secret123!" eq_refl eq_refl eq_refl nonempty_email
             eq_refl nonempty_password nobody_registered_yet eq_refl eq_refl
             eq_refl).
  reflexivity.
Defined.

(** Alice registers on the empty collection; a second request under her
    email is refused. *)
Lemma register_twice_refused_witness :
  bodies (serve (sample_createUser (Sample.register "Alice2" "a@x.com" "Other456!"))
            (snd (serve (sample_createUser
                           (Sample.register "Alice" "a@x.com" "Secret123!"))
                    Sample.empty_store)))
  = [mkEnvelope false 400 (VStr "Email already exists")].
Proof.
  rewrite (proj1 (register_twice_refused Sample.validate Sample.hash Sample.oid
                    Sample.cast_filter
                    (Sample.register "Alice" "a@x.com" "Secret123!")
                    (Sample.register "Alice2" "a@x.com" "Other456!")
                    Sample.empty_store "a@x.com" "Secret123!"
                    eq_refl eq_refl eq_refl nobody_registered_yet eq_refl eq_refl)).
  reflexivity.
Defined.

Lemma sample_token_nonempty :
  Sample.sign (VObj [("email", VStr "a@x.com")]) Sample.secret
    (mkSignOptions "1h") (now Sample.one_account) <> "".
Proof. discriminate. Qed.

(** The sample account logs in and the client sends the cookie back. *)
Lemma login_then_verify_witness :
  serve (sample_isTokenOk (Sample.with_cookie "jwt.a@x.com.s3cret"))
    Sample.one_account
  = (Ret tt,
     answered (mkHttp 200 [] (mkEnvelope true 200 (VStr "Token accepted")))
       Sample.one_account)
  /\ fst (sample_validateClientToken (VStr "jwt.a@x.com.s3cret") Sample.one_account)
     = Ret true.
Proof.
  exact (proj2
    (login_then_verify Sample.compare Sample.secret Sample.sign Sample.verify
       Sample.cast_filter
       (Sample.login "a@x.com" "Secret123!")
       (Sample.with_cookie "jwt.a@x.com.s3cret")
       Sample.one_account Sample.one_account
       "a@x.com" "Secret123!" Sample.alice "$2a$10$Secret123!"
       (mkHttp 200 [mkCookie "access_token" "jwt.a@x.com.s3cret" true]
          (mkEnvelope true 200 (VObj [("user", VObj alice_without_password)])))
       (VObj [("email", VStr "a@x.com")])
       eq_refl nonempty_email eq_refl nonempty_password eq_refl eq_refl eq_refl
       eq_refl eq_refl sample_token_nonempty eq_refl)).
Defined.

Lemma a_number_is_no_string : forall p, VNum 12345 <> VStr p.
Proof. discriminate. Qed.

(** A login of the sample account with a number as password. *)
Lemma loginUser_non_string_password_witness :
  serve (sample_loginUser
           (mkRequest [("email", VStr "a@x.com"); ("password", VNum 12345)] []))
    Sample.one_account
  = (Throw (Error "Illegal arguments: number, string"), Sample.one_account).
Proof.
  exact (loginUser_non_string_password Sample.compare Sample.secret Sample.sign
           Sample.cast_filter
           (mkRequest [("email", VStr "a@x.com"); ("password", VNum 12345)] [])
           Sample.one_account "a@x.com" Sample.alice (VNum 12345)
           eq_refl nonempty_email eq_refl eq_refl a_number_is_no_string eq_refl).
Defined.

Lemma no_account_has_the_new_id :
  forall d, In d (users Sample.empty_store) ->
            get "_id" d <> VStr (Sample.oid (S (entropy Sample.empty_store))).
Proof. intros d []. Qed.

(** Alice registers on the empty collection and is looked up by her
    identifier. *)
Lemma register_then_find_by_id_witness :
  fst (sample_isUserExist (VStr "aaaaaaaaaaaaaaaaaaaaaaab")
         (snd (serve (sample_createUser
                        (Sample.register "Alice" "a@x.com" "Secret123!"))
                 Sample.empty_store)))
  = Ret (Some [("_id", VStr "aaaaaaaaaaaaaaaaaaaaaaab");
               ("name", VStr "Alice");
               ("email", VStr "a@x.com");
               ("password", VStr "$2a$10$Secret123!")]).
Proof.
  rewrite (register_then_find_by_id Sample.validate Sample.hash Sample.oid
             Sample.cast_id Sample.cast_filter
             (Sample.register "Alice" "a@x.com" "Secret123!") Sample.empty_store
             "a@x.com" "Secret123!" (VStr "aaaaaaaaaaaaaaaaaaaaaaab")
             eq_refl eq_refl eq_refl nobody_registered_yet eq_refl
             no_account_has_the_new_id).
  reflexivity.
Defined.

(** The login of the sample account before and after Bob registers. *)
Lemma login_stable_under_registration_witness :
  fst (serve (sample_loginUser (Sample.login "a@x.com" "Secret123!"))
         (snd (serve (sample_createUser
                        (Sample.register "Bob" "b@x.com" "Other456!"))
                 Sample.one_account)))
  = fst (serve (sample_loginUser (Sample.login "a@x.com" "Secret123!"))
           Sample.one_account).
Proof.
  exact (proj1
    (login_stable_under_registration Sample.validate Sample.hash Sample.compare
       Sample.secret Sample.sign Sample.oid Sample.cast_filter
       (Sample.register "Bob" "b@x.com" "Other456!")
       (Sample.login "a@x.com" "Secret123!") Sample.one_account
       "a@x.com" Sample.alice eq_refl eq_refl)).
Defined.

(** Bob registers, the sample account logs in, and a request under the
    email of the sample account is refused: the emails stay distinct. *)
Lemma emails_stay_unique_witness :
  NoDup (string_emails
           (users (serve_all Sample.validate Sample.hash Sample.compare
                     Sample.secret Sample.sign Sample.verify Sample.oid
                     Sample.cast_filter
                     [Register (Sample.register "Bob" "b@x.com" "Other456!");
                      Login (Sample.login "a@x.com" "Secret123!");
                      Register (Sample.register "Alice2" "a@x.com" "Other456!")]
                     Sample.one_account))).
Proof.
  apply (emails_stay_unique Sample.validate Sample.hash Sample.compare
           Sample.secret Sample.sign Sample.verify Sample.oid
           Sample.cast_filter).
  - repeat constructor; simpl; eauto.
  - exact alice_is_alone.
Defined.
